(** * CarbonAgro: the Crop Analysis page of [main.py]

    A shallow embedding of [src/CarbonAgro/main.py]: the dataset loader
    ([load_data], lines 19-27) and the "Crop Analysis" branch of the page
    (lines 66-112), followed by the properties the specification states
    about them.

    The embedding keeps the shape of the script.  Python floats are IEEE 754
    binary64 numbers, rounding and overflow included; strings are sequences
    of code points; a data frame is a header (its column names) over a list
    of rows; what Streamlit displays is returned as a value of type
    [outcome]. *)

From Stdlib Require Import ZArith List Bool Lia String Ascii Sorted.
From Stdlib Require Import Floats.SpecFloat.
Import ListNotations.

Local Open Scope Z_scope.

(* ================================================================== *)
(** * Python floats: IEEE 754 binary64 *)
(* ================================================================== *)

(** Every finite binary64 number is an integer multiple of [2^-1074] (the
    smallest subnormal).  A finite float is represented by that integer:
    [Fin u] stands for the real number [u * 2^-1074].  The two zeros are
    identified: the program never divides by zero, and comparisons do not
    tell them apart. *)
Inductive float64 : Type :=
| NaN
| Inf (neg : bool)
| Fin (u : Z).

(** [2^1074]: the number of units in [1.0]. *)
Definition unit_scale : Z := 2 ^ 1074.

(** [2^1024] in units: results of that magnitude overflow to an infinity. *)
Definition overflow_bound : Z := 2 ^ 2098.

(** Nearest integer to [a / c] ([0 <= a], [0 < c]), ties to even. *)
Definition rne (a c : Z) : Z :=
  let q := a / c in
  match 2 * (a mod c) ?= c with
  | Lt => q
  | Gt => q + 1
  | Eq => if Z.even q then q else q + 1
  end.

(** Rounding of the non-negative rational [a / b] (in units) to 53
    significant bits: below [2^53] units the grid step is one unit
    (subnormals and the first binade), above it the step is [2^k] with
    [2^(52+k) <= a / b < 2^(53+k)]. *)
Definition round_pos (a b : Z) : Z :=
  let k := Z.max 0 (Z.log2 (a / b) - 52) in
  rne a (b * 2 ^ k) * 2 ^ k.

(** Round-to-nearest-even of the rational [a / b] units ([0 < b]), with
    overflow. *)
Definition round64 (a b : Z) : float64 :=
  let m := round_pos (Z.abs a) b in
  if overflow_bound <=? m then Inf (a <? 0) else Fin (Z.sgn a * m).

(** A decimal literal [a / b] of the source, such as [0.002]. *)
Definition literal (a b : Z) : float64 := round64 (a * unit_scale) b.

Definition zero : float64 := Fin 0.
Definition one : float64 := literal 1 1.

(** [x + y] *)
Definition fadd (x y : float64) : float64 :=
  match x, y with
  | NaN, _ | _, NaN => NaN
  | Inf s, Inf t => if Bool.eqb s t then Inf s else NaN
  | Inf s, Fin _ | Fin _, Inf s => Inf s
  | Fin u, Fin v => round64 (u + v) 1
  end.

(** [x * y] *)
Definition fmul (x y : float64) : float64 :=
  match x, y with
  | NaN, _ | _, NaN => NaN
  | Inf s, Inf t => Inf (xorb s t)
  | Inf s, Fin u | Fin u, Inf s => if u =? 0 then NaN else Inf (xorb s (u <? 0))
  | Fin u, Fin v => round64 (u * v) unit_scale
  end.

(** [x / y] *)
Definition fdiv (x y : float64) : float64 :=
  match x, y with
  | NaN, _ | _, NaN => NaN
  | Inf _, Inf _ => NaN
  | Inf s, Fin v => Inf (xorb s (v <? 0))
  | Fin _, Inf _ => Fin 0
  | Fin u, Fin v =>
      if v =? 0 then (if u =? 0 then NaN else Inf (u <? 0))
      else round64 (Z.sgn v * u * unit_scale) (Z.abs v)
  end.

(** Comparison; [None] when an operand is NaN. *)
Definition fcompare (x y : float64) : option comparison :=
  match x, y with
  | NaN, _ | _, NaN => None
  | Inf s, Inf t =>
      Some (if Bool.eqb s t then Eq else if s then Lt else Gt)
  | Inf s, Fin _ => Some (if s then Lt else Gt)
  | Fin _, Inf t => Some (if t then Gt else Lt)
  | Fin u, Fin v => Some (u ?= v)
  end.

(** [x <= y] *)
Definition fle (x y : float64) : bool :=
  match fcompare x y with
  | Some Lt | Some Eq => true
  | _ => false
  end.

(** [x < y] *)
Definition flt (x y : float64) : bool :=
  match fcompare x y with
  | Some Lt => true
  | _ => false
  end.

(** [x > y] *)
Definition fgt (x y : float64) : bool := flt y x.

(** [pd.isna] on a float scalar. *)
Definition isna (x : float64) : bool :=
  match x with
  | NaN => true
  | _ => false
  end.

(** Neither NaN nor an infinity. *)
Definition is_finite (x : float64) : bool :=
  match x with
  | Fin _ => true
  | _ => false
  end.

(** The finite floats that binary64 has: a significand of at most 53 bits
    times a power of two, below the overflow bound. *)
Definition binary64 (x : float64) : Prop :=
  match x with
  | Fin u =>
      exists m e, Z.abs m <= 2 ^ 53 /\ 0 <= e /\ u = m * 2 ^ e
                  /\ Z.abs u < overflow_bound
  | _ => True
  end.

(** A row count as a float.  A count is a machine integer (below [2^63]),
    so its conversion rounds above [2^53] but never overflows. *)
Definition of_count (n : nat) : float64 :=
  Fin (round_pos (Z.of_nat n * unit_scale) 1).

(** Correspondence with the Standard Library's specification of IEEE 754
    arithmetic ([SpecFloat], precision 53, [emax = 1024]), used to validate
    the operations above on concrete operands. *)
Definition of_spec_float (x : spec_float) : float64 :=
  match x with
  | S754_zero _ => Fin 0
  | S754_infinity s => Inf s
  | S754_nan => NaN
  | S754_finite s m e => Fin ((if s then -1 else 1) * Z.pos m * 2 ^ (e + 1074))
  end.

Definition to_spec_float (x : float64) : spec_float :=
  match x with
  | NaN => S754_nan
  | Inf s => S754_infinity s
  | Fin u => binary_normalize 53 1024 u (-1074) false
  end.

(* ================================================================== *)
(** * Python strings *)
(* ================================================================== *)

(** A character is a code point below 256 (ASCII and Latin-1), on which
    [str.lower] works character by character. *)
Definition lower_char (c : ascii) : ascii :=
  let n := N_of_ascii c in
  if (((65 <=? n) && (n <=? 90))
      || ((192 <=? n) && (n <=? 222) && negb (n =? 215)))%N
  then ascii_of_N (n + 32)
  else c.

(** [s.lower()] *)
Fixpoint lower (s : string) : string :=
  match s with
  | EmptyString => EmptyString
  | String c t => String (lower_char c) (lower t)
  end.

(** The characters [str.strip()] removes. *)
Definition isspace (c : ascii) : bool :=
  let n := N_of_ascii c in
  (((9 <=? n) && (n <=? 13)) || ((28 <=? n) && (n <=? 32))
   || (n =? 133) || (n =? 160))%N.

Fixpoint lstrip (s : string) : string :=
  match s with
  | EmptyString => EmptyString
  | String c t => if isspace c then lstrip t else s
  end.

Fixpoint rstrip (s : string) : string :=
  match s with
  | EmptyString => EmptyString
  | String c t =>
      match rstrip t with
      | EmptyString => if isspace c then EmptyString else String c EmptyString
      | t' => String c t'
      end
  end.

(** [s.strip()] *)
Definition strip (s : string) : string := rstrip (lstrip s).

(** A string that does not begin with a space. *)
Definition no_leading_space (s : string) : Prop :=
  match s with
  | EmptyString => True
  | String c _ => isspace c = false
  end.



(* ================================================================== *)
(** * Data frames *)
(* ================================================================== *)

(** A frame is its header and its rows.  The row type [R] carries the
    cells the page reads.  Both files have a [crop] column of text, and the
    measures file a [necessary_measures] column of text; [None] in a text
    cell is a missing value.  The [carbon_footprint] column is numeric,
    with NaN for a missing value. *)
Record DataFrame (R : Type) : Type := mkFrame {
  columns : list string;
  rows : list R
}.
Arguments mkFrame {R} _ _.
Arguments columns {R} _.
Arguments rows {R} _.

Module Yield.

(** A row of [crop_yield_with_carbon_footprint.csv].  The
    [carbon_footprint] cell is read only when the header lists that
    column. *)
Record row : Type := mk {
  crop : option string;
  carbon_footprint : float64
}.

End Yield.

Module Measures.

(** A row of [crop_measures.csv]. *)
Record row : Type := mk {
  crop : option string;
  necessary_measures : option string
}.

End Measures.

(** [df.columns = [c.lower().strip() for c in df.columns]] *)
Definition standardize {R : Type} (df : DataFrame R) : DataFrame R :=
  {| columns := map (fun c => strip (lower c)) (columns df);
     rows := rows df |}.

(** [load_data], lines 19-27.  The two arguments are what [pd.read_csv]
    returned for the two files. *)
Definition load_data {R S : Type}
    (df : DataFrame R) (measures : DataFrame S) : DataFrame R * DataFrame S :=
  (standardize df, standardize measures).

(** [name in df.columns] *)
Definition has_column {R : Type} (name : string) (df : DataFrame R) : bool :=
  existsb (String.eqb name) (columns df).

(** [df.empty], for a frame whose header is not empty. *)
Definition empty {R : Type} (df : DataFrame R) : bool :=
  match rows df with
  | [] => true
  | _ :: _ => false
  end.

(** [series.str.lower()]: a missing cell stays missing. *)
Definition str_lower (cell : option string) : option string :=
  option_map lower cell.

(** [series == s], cell by cell: a missing cell is equal to no string. *)
Definition cell_eq (cell : option string) (s : string) : bool :=
  match cell with
  | Some t => String.eqb t s
  | None => false
  end.

(** [df[df["crop"].str.lower() == key]] *)
Definition select_crop {R : Type} (crop : R -> option string)
    (df : DataFrame R) (key : string) : DataFrame R :=
  {| columns := columns df;
     rows := filter (fun r => cell_eq (str_lower (crop r)) key) (rows df) |}.

(* ================================================================== *)
(** * Series operations *)
(* ================================================================== *)

(** [.replace([float("inf"), -float("inf")], float("nan"))] *)
Definition replace_inf (x : float64) : float64 :=
  match x with
  | Inf _ => NaN
  | _ => x
  end.

(** [.dropna()] *)
Definition dropna (l : list float64) : list float64 :=
  filter (fun x => negb (isna x)) l.

(** The sum of a series, accumulated from the left, as numpy adds a series
    of fewer than eight values.  For longer series numpy adds in blocks;
    the order changes the last bits of the result and what a sum that
    overflows in both directions gives, and nothing else. *)
Definition sum (l : list float64) : float64 := fold_left fadd l zero.

(** [.mean()]: the sum over the count, NaN for an empty series. *)
Definition mean (l : list float64) : float64 :=
  match l with
  | [] => NaN
  | _ :: _ => fdiv (sum l) (of_count (List.length l))
  end.

Definition cell_eq_dec : forall x y : option string, {x = y} + {x <> y}.
Proof. decide equality. apply string_dec. Defined.

(** [.drop_duplicates()] and [.unique()]: the first occurrence of each
    value is kept; missing values are equal to each other. *)
Fixpoint drop_duplicates_seen (seen l : list (option string))
    : list (option string) :=
  match l with
  | [] => []
  | x :: t =>
      if in_dec cell_eq_dec x seen then drop_duplicates_seen seen t
      else x :: drop_duplicates_seen (x :: seen) t
  end.

Definition drop_duplicates (l : list (option string)) : list (option string) :=
  drop_duplicates_seen [] l.

(** Position of the first occurrence of [x] in [l]. *)
Fixpoint first_index (x : option string) (l : list (option string)) : nat :=
  match l with
  | [] => O
  | y :: t => if cell_eq_dec x y then O else S (first_index x t)
  end.

(* ================================================================== *)
(** * The Crop Analysis page, lines 66-112 *)
(* ================================================================== *)

(** [crop_list = df["crop"].unique()], line 70. *)
Definition crop_list (df : DataFrame Yield.row) : list (option string) :=
  drop_duplicates (map Yield.crop (rows df)).

(** [st.selectbox("Select a Crop", crop_list)], line 71: the option at the
    position the user picked.  The result is [None] when it is not a
    string: the option is a missing crop cell, or there is no option and
    Streamlit returns Python's [None]. *)
Definition selectbox (options : list (option string)) (choice : nat)
    : option string :=
  nth choice options None.

(** Line 77. *)
Definition crop_data (df : DataFrame Yield.row) (selected_crop : string)
    : DataFrame Yield.row :=
  select_crop Yield.crop df (lower selected_crop).

(** Lines 84-89. *)
Definition base_factor (crop_data : DataFrame Yield.row) : float64 :=
  if has_column "carbon_footprint" crop_data then
    let base_factor :=
      mean (dropna (map replace_inf
                      (map Yield.carbon_footprint (rows crop_data)))) in
    if isna base_factor || fle base_factor zero then one else base_factor
  else one.

(** Lines 92-93. *)
Definition fertilizer_factor : float64 := literal 2 1000.
Definition pesticide_factor : float64 := literal 1 1000.

(** Line 96. *)
Definition predicted_cf (area base_factor fertilizer pesticide : float64)
    : float64 :=
  fadd (fadd (fmul area base_factor) (fmul fertilizer fertilizer_factor))
       (fmul pesticide pesticide_factor).

(** Line 105. *)
Definition crop_measures (measures : DataFrame Measures.row)
    (selected_crop : string) : DataFrame Measures.row :=
  select_crop Measures.crop measures (lower selected_crop).

(** Line 108. *)
Definition unique_measures (crop_measures : DataFrame Measures.row)
    : list (option string) :=
  drop_duplicates (map Measures.necessary_measures (rows crop_measures)).

(** What lines 105-112 display. *)
Inductive measures_section : Type :=
| RecommendedMeasures (lines : list (option string))
| NoMeasuresWarning.

Definition show_measures (measures : DataFrame Measures.row)
    (selected_crop : string) : measures_section :=
  let crop_measures := crop_measures measures selected_crop in
  if negb (empty crop_measures)
  then RecommendedMeasures (unique_measures crop_measures)
  else NoMeasuresWarning.

(** The measures written to the page, one [st.write] each. *)
Definition written_measures (s : measures_section) : list (option string) :=
  match s with
  | RecommendedMeasures lines => lines
  | NoMeasuresWarning => []
  end.

Inductive exn : Type :=
| AttributeError.

(** What the page does below the input widgets. *)
Inductive outcome : Type :=
| NotAnalysed
    (** [area > 0] is false: nothing is displayed *)
| NoCropData
    (** [crop_data.empty]: nothing is displayed *)
| Raised (e : exn)
    (** the script stops on an exception *)
| Analysis (predicted_cf : float64) (shown : measures_section)
    (** the footprint and the measures section are displayed *).

(** Lines 76-112, for the values the widgets returned. *)
Definition analyse (df : DataFrame Yield.row) (measures : DataFrame Measures.row)
    (selected_crop : option string) (area fertilizer pesticide : float64)
    : outcome :=
  if fgt area zero then
    match selected_crop with
    | None => Raised AttributeError
    | Some selected_crop =>
        let crop_data := crop_data df selected_crop in
        if negb (empty crop_data) then
          Analysis
            (predicted_cf area (base_factor crop_data) fertilizer pesticide)
            (show_measures measures selected_crop)
        else NoCropData
    end
  else NotAnalysed.

(** Lines 70-112: the page from the user's actions, [choice] being the
    position picked in the select box. *)
Definition crop_analysis (df : DataFrame Yield.row)
    (measures : DataFrame Measures.row)
    (choice : nat) (area fertilizer pesticide : float64) : outcome :=
  let crop_list := crop_list df in
  let selected_crop := selectbox crop_list choice in
  analyse df measures selected_crop area fertilizer pesticide.

(** The footprint the page displays, if any. *)
Definition footprint (o : outcome) : option float64 :=
  match o with
  | Analysis predicted_cf _ => Some predicted_cf
  | _ => None
  end.

(** The measures the page writes, if any. *)
Definition measures_of (o : outcome) : list (option string) :=
  match o with
  | Analysis _ shown => written_measures shown
  | _ => []
  end.


(** A value the number inputs of lines 72-74 can return
    ([min_value=0.0]): a float that is not below zero. *)
Definition number_input (x : float64) : Prop := fle zero x = true.

(** The recommendations as the specification words them (section 4.3): the
    [necessary_measures] of the rows whose crop matches without regard to
    case, before duplicates are collapsed. *)
Definition matching_measures (measures_table : DataFrame Measures.row)
    (crop : string) : list (option string) :=
  map Measures.necessary_measures
    (filter (fun r => match Measures.crop r with
                      | Some c => String.eqb (lower c) (lower crop)
                      | None => false
                      end) (rows measures_table)).


(* ================================================================== *)
(** * Example data *)
(* ================================================================== *)

Definition yield_header : list string := ["crop"; "carbon_footprint"]%string.
Definition measures_header : list string := ["crop"; "necessary_measures"]%string.

(** The yield table of the specification's example: one row for Rice. *)
Definition rice_table : DataFrame Yield.row :=
  mkFrame yield_header [Yield.mk (Some "Rice"%string) (literal 2 1)].

(** The measures rows of the specification's example. *)
Definition wheat_measures : DataFrame Measures.row :=
  mkFrame measures_header
    [Measures.mk (Some "Wheat"%string) (Some "Use drip irrigation"%string);
     Measures.mk (Some "Wheat"%string) (Some "Use drip irrigation"%string);
     Measures.mk (Some "Wheat"%string) (Some "Rotate crops"%string)].

(** Two rows whose footprints are finite and whose sum is not. *)
Definition huge : float64 := literal (17 * 10 ^ 307) 1.
Definition huge_table : DataFrame Yield.row :=
  mkFrame yield_header
    [Yield.mk (Some "Rice"%string) huge; Yield.mk (Some "Rice"%string) huge].


(* ================================================================== *)
(** * Rounding *)
(* ================================================================== *)

Lemma unit_scale_pos : 0 < unit_scale.
Proof. vm_compute. reflexivity. Qed.

Lemma overflow_bound_pos : 0 < overflow_bound.
Proof. vm_compute. reflexivity. Qed.

(** The four ways [rne] rounds the quotient [q] with remainder [r]. *)
Lemma rne_cases a c :
  0 < c ->
  exists q r, a = c * q + r /\ 0 <= r < c /\
    ((2 * r < c /\ rne a c = q) \/
     (2 * r > c /\ rne a c = q + 1) \/
     (2 * r = c /\ Z.even q = true /\ rne a c = q) \/
     (2 * r = c /\ Z.even q = false /\ rne a c = q + 1)).
Proof.
  intros Hc. exists (a / c), (a mod c).
  pose proof (Z.div_mod a c ltac:(lia)) as Hdm.
  pose proof (Z.mod_pos_bound a c Hc) as Hb.
  split; [exact Hdm|]. split; [exact Hb|].
  unfold rne. destruct (Z.compare_spec (2 * (a mod c)) c) as [E|L|G].
  - destruct (Z.even (a / c)) eqn:Ev;
      [right; right; left | right; right; right]; auto.
  - left; auto.
  - right; left; split; [lia|reflexivity].
Qed.

Ltac rne_split H :=
  destruct H as [[? ->]|[[? ->]|[[? [? ->]]|[? [? ->]]]]].

Lemma quot_le_cross c c' q r q' r' :
  0 < c -> 0 < c' -> 0 <= r < c -> 0 <= r' < c' ->
  (c * q + r) * c' <= (c' * q' + r') * c -> q <= q'.
Proof.
  intros Hc Hc' Hr Hr' Hle.
  destruct (Z.le_gt_cases q q') as [|Hgt]; [assumption|exfalso].
  assert (0 < c * c') by nia.
  assert (c * c' * (q' + 1) <= c * c' * q)
    by (apply Z.mul_le_mono_nonneg_l; lia).
  nia.
Qed.

Lemma div_le_cross a b a' b' :
  0 < b -> 0 < b' -> a * b' <= a' * b -> a / b <= a' / b'.
Proof.
  intros Hb Hb' Hle.
  pose proof (Z.div_mod a b ltac:(lia)) as E.
  pose proof (Z.mod_pos_bound a b Hb).
  pose proof (Z.div_mod a' b' ltac:(lia)) as E'.
  pose proof (Z.mod_pos_bound a' b' Hb').
  apply (quot_le_cross b b' (a / b) (a mod b) (a' / b') (a' mod b')); auto.
  rewrite <- E, <- E'. exact Hle.
Qed.

(** Rounding to the nearest integer is monotone on rationals. *)
Lemma rne_mono a c a' c' :
  0 < c -> 0 < c' -> a * c' <= a' * c -> rne a c <= rne a' c'.
Proof.
  intros Hc Hc' Hle.
  destruct (rne_cases a c Hc) as (q & r & Ha & Hr & Hq).
  destruct (rne_cases a' c' Hc') as (q' & r' & Ha' & Hr' & Hq').
  assert (Hqq : q <= q').
  { apply (quot_le_cross c c' q r q' r'); auto. subst a a'. exact Hle. }
  destruct (Z.eq_dec q q') as [->|Hne].
  - assert (Hrr : r * c' <= r' * c) by nia.
    rne_split Hq; rne_split Hq'; try lia; try nia; congruence.
  - assert (q + 1 <= q') by lia.
    rne_split Hq; rne_split Hq'; lia.
Qed.

Lemma rne_le_int a c n : 0 < c -> a <= n * c -> rne a c <= n.
Proof.
  intros Hc Hle.
  destruct (rne_cases a c Hc) as (q & r & Ha & Hr & Hq).
  rne_split Hq; nia.
Qed.

Lemma rne_ge_int a c n : 0 < c -> n * c <= a -> n <= rne a c.
Proof.
  intros Hc Hle.
  destruct (rne_cases a c Hc) as (q & r & Ha & Hr & Hq).
  rne_split Hq; nia.
Qed.

(** The rounded significand has at most 53 bits. *)
Lemma round_pos_significand a b :
  0 <= a -> 0 < b ->
  rne a (b * 2 ^ Z.max 0 (Z.log2 (a / b) - 52)) <= 2 ^ 53.
Proof.
  intros Ha Hb. set (n := a / b). set (k := Z.max 0 (Z.log2 n - 52)).
  assert (Hn : 0 <= n) by (apply Z.div_pos; lia).
  assert (Hk : 0 <= k) by lia.
  assert (Hp : 0 < 2 ^ k) by (apply Z.pow_pos_nonneg; lia).
  apply rne_le_int; [nia|].
  assert (Hnb : n < 2 ^ (53 + k)).
  { destruct (Z.eq_dec n 0) as [->|Hn0].
    - apply Z.pow_pos_nonneg; lia.
    - pose proof (Z.log2_spec n ltac:(lia)) as [_ Hs].
      eapply Z.lt_le_trans; [exact Hs|]. apply Z.pow_le_mono_r; lia. }
  rewrite Z.pow_add_r in Hnb by lia.
  pose proof (Z.div_mod a b ltac:(lia)) as E.
  pose proof (Z.mod_pos_bound a b Hb) as B.
  fold n in E, B. nia.
Qed.

(** Rounding to 53 bits is monotone: within a binade by [rne_mono], across
    binades because the powers of two between them are on the grid. *)
Lemma round_pos_mono a b a' b' :
  0 <= a -> 0 < b -> 0 < b' -> a * b' <= a' * b ->
  round_pos a b <= round_pos a' b'.
Proof.
  intros Ha Hb Hb' Hle. unfold round_pos.
  pose proof (round_pos_significand a b Ha Hb) as Hsig.
  set (n := a / b) in *. set (n' := a' / b').
  assert (Hn : 0 <= n) by (apply Z.div_pos; lia).
  assert (Hnn : n <= n') by (apply div_le_cross; assumption).
  pose proof (Z.log2_le_mono n n' Hnn) as Hlog.
  set (k := Z.max 0 (Z.log2 n - 52)) in *.
  set (k' := Z.max 0 (Z.log2 n' - 52)).
  assert (Hk : 0 <= k) by lia. assert (Hkk : k <= k') by lia.
  assert (Hp : 0 < 2 ^ k) by (apply Z.pow_pos_nonneg; lia).
  assert (Hp' : 0 < 2 ^ k') by (apply Z.pow_pos_nonneg; lia).
  destruct (Z.eq_dec k k') as [E|NE].
  - rewrite <- E. apply Z.mul_le_mono_nonneg_r; [lia|].
    apply rne_mono; nia.
  - assert (Hlt : k + 1 <= k') by lia.
    apply Z.le_trans with (2 ^ 53 * 2 ^ k).
    + apply Z.mul_le_mono_nonneg_r; [lia|exact Hsig].
    + apply Z.le_trans with (2 ^ 52 * 2 ^ k').
      * rewrite <- !Z.pow_add_r by lia. apply Z.pow_le_mono_r; lia.
      * apply Z.mul_le_mono_nonneg_r; [lia|].
        apply rne_ge_int; [nia|].
        assert (Hk' : k' = Z.log2 n' - 52) by lia.
        assert (Hn'pos : 0 < n').
        { destruct (Z.le_gt_cases n' 0); [|lia].
          rewrite (Z.log2_nonpos n') in Hk' by lia. lia. }
        pose proof (Z.log2_spec n' Hn'pos) as [Hs _].
        replace (Z.log2 n') with (52 + k') in Hs by lia.
        rewrite Z.pow_add_r in Hs by lia.
        pose proof (Z.div_mod a' b' ltac:(lia)) as E.
        pose proof (Z.mod_pos_bound a' b' Hb') as B.
        fold n' in E, B. nia.
Qed.

Lemma round_pos_nonneg a b : 0 <= a -> 0 < b -> 0 <= round_pos a b.
Proof.
  intros Ha Hb. unfold round_pos.
  set (k := Z.max 0 (Z.log2 (a / b) - 52)).
  assert (Hp : 0 < 2 ^ k) by (apply Z.pow_pos_nonneg; lia).
  apply Z.mul_nonneg_nonneg; [|lia].
  apply rne_ge_int; nia.
Qed.

(** A rational that is at least one unit rounds to a positive number. *)
Lemma round_pos_pos a b : 0 < b -> b <= a -> 0 < round_pos a b.
Proof.
  intros Hb Hle. unfold round_pos.
  set (n := a / b).
  assert (Hn : 1 <= n).
  { unfold n. replace 1 with (b / b) by (apply Z.div_same; lia).
    apply Z.div_le_mono; lia. }
  set (k := Z.max 0 (Z.log2 n - 52)).
  assert (Hk : 0 <= k) by lia.
  assert (Hp : 0 < 2 ^ k) by (apply Z.pow_pos_nonneg; lia).
  apply Z.mul_pos_pos; [|lia].
  enough (1 <= rne a (b * 2 ^ k)) by lia.
  apply rne_ge_int; [nia|].
  assert (H2 : 2 ^ k <= n).
  { pose proof (Z.log2_spec n ltac:(lia)) as [Hs _].
    pose proof (Z.log2_nonneg n).
    eapply Z.le_trans; [|exact Hs]. apply Z.pow_le_mono_r; lia. }
  pose proof (Z.div_mod a b ltac:(lia)) as E.
  pose proof (Z.mod_pos_bound a b Hb) as B.
  fold n in E, B. nia.
Qed.

(* ================================================================== *)
(** * Order and arithmetic of floats *)
(* ================================================================== *)

Lemma round64_not_nan a b : isna (round64 a b) = false.
Proof. unfold round64. destruct (_ <=? _); reflexivity. Qed.

Lemma fle_pos_inf x : isna x = false -> fle x (Inf false) = true.
Proof. destruct x as [|[]|]; intros H; try discriminate; reflexivity. Qed.

Lemma fle_Fin u v : fle (Fin u) (Fin v) = true <-> u <= v.
Proof.
  unfold fle, fcompare. destruct (Z.compare_spec u v); split; intros;
    try reflexivity; try discriminate; lia.
Qed.

Lemma flt_Fin u v : flt (Fin u) (Fin v) = true <-> u < v.
Proof.
  unfold flt, fcompare. destruct (Z.compare_spec u v); split; intros;
    try reflexivity; try discriminate; lia.
Qed.

(** A float that is not below zero is [+inf] or a non-negative finite. *)
Lemma number_input_cases x :
  number_input x -> x = Inf false \/ exists u, x = Fin u /\ 0 <= u.
Proof.
  unfold number_input. destruct x as [|[]|u]; intros H; try discriminate.
  - left; reflexivity.
  - right. exists u. split; [reflexivity|]. apply fle_Fin. exact H.
Qed.

(** A float above zero is [+inf] or a positive finite. *)
Lemma positive_cases x :
  flt zero x = true -> x = Inf false \/ exists u, x = Fin u /\ 0 < u.
Proof.
  destruct x as [|[]|u]; intros H; try discriminate.
  - left; reflexivity.
  - right. exists u. split; [reflexivity|]. apply flt_Fin. exact H.
Qed.

Lemma positive_number_input x : flt zero x = true -> number_input x.
Proof.
  intros H. destruct (positive_cases x H) as [->|(u & -> & Hu)].
  - reflexivity.
  - apply fle_Fin. lia.
Qed.

Lemma fle_trans x y z :
  fle x y = true -> fle y z = true -> fle x z = true.
Proof.
  destruct x as [|[]|u], y as [|[]|v], z as [|[]|w];
    intros H1 H2; try discriminate; try reflexivity.
  apply fle_Fin in H1. apply fle_Fin in H2. apply fle_Fin. lia.
Qed.

(** Rounding is monotone on rationals of either sign. *)
Lemma round64_mono a b a' b' :
  0 < b -> 0 < b' -> a * b' <= a' * b ->
  fle (round64 a b) (round64 a' b') = true.
Proof.
  intros Hb Hb' Hle. unfold round64.
  pose proof (round_pos_nonneg (Z.abs a) b (Z.abs_nonneg a) Hb) as Hm.
  pose proof (round_pos_nonneg (Z.abs a') b' (Z.abs_nonneg a') Hb') as Hm'.
  pose proof overflow_bound_pos as Hob.
  destruct (Z.lt_ge_cases a 0) as [Hneg|Hpos].
  - assert (Ea : (a <? 0) = true) by (apply Z.ltb_lt; lia). rewrite Ea.
    destruct (Z.leb_spec overflow_bound (round_pos (Z.abs a) b)) as [Ho|Ho].
    + destruct (_ <=? _); destruct (a' <? 0); reflexivity.
    + destruct (Z.lt_ge_cases a' 0) as [Hneg'|Hpos'].
      * assert (Hmm : round_pos (Z.abs a') b' <= round_pos (Z.abs a) b).
        { apply round_pos_mono; lia. }
        destruct (Z.leb_spec overflow_bound (round_pos (Z.abs a') b'));
          [lia|].
        apply fle_Fin. rewrite !Z.sgn_neg by lia. lia.
      * destruct (Z.leb_spec overflow_bound (round_pos (Z.abs a') b')).
        -- assert (Ea' : (a' <? 0) = false) by (apply Z.ltb_ge; lia).
           rewrite Ea'. reflexivity.
        -- apply fle_Fin. rewrite Z.sgn_neg by lia.
           assert (0 <= Z.sgn a') by (apply Z.sgn_nonneg; lia). nia.
  - assert (Hpos' : 0 <= a') by nia.
    assert (Ea : (a <? 0) = false) by (apply Z.ltb_ge; lia).
    assert (Ea' : (a' <? 0) = false) by (apply Z.ltb_ge; lia).
    rewrite Ea, Ea'.
    assert (Hmm : round_pos (Z.abs a) b <= round_pos (Z.abs a') b').
    { apply round_pos_mono; lia. }
    destruct (Z.leb_spec overflow_bound (round_pos (Z.abs a) b));
      destruct (Z.leb_spec overflow_bound (round_pos (Z.abs a') b'));
      try reflexivity; try lia.
    apply fle_Fin.
    destruct (Z.eq_dec a 0) as [->|Ha0].
    + assert (0 <= Z.sgn a') by (apply Z.sgn_nonneg; lia). nia.
    + rewrite !Z.sgn_pos by nia. lia.
Qed.

(** A non-negative rational rounds to a float that is not below zero. *)
Lemma round64_nonneg a b : 0 <= a -> 0 < b -> number_input (round64 a b).
Proof.
  intros Ha Hb. unfold number_input, round64.
  pose proof (round_pos_nonneg (Z.abs a) b (Z.abs_nonneg a) Hb) as Hm.
  assert (Ea : (a <? 0) = false) by (apply Z.ltb_ge; lia). rewrite Ea.
  destruct (_ <=? _); [reflexivity|].
  apply fle_Fin. assert (0 <= Z.sgn a) by (apply Z.sgn_nonneg; lia). nia.
Qed.

(** Rounding lands on the binary64 grid, so the three operations return
    binary64 numbers whatever their operands. *)
Lemma round64_binary64 a b : 0 < b -> binary64 (round64 a b).
Proof.
  intros Hb. unfold round64.
  pose proof (round_pos_nonneg (Z.abs a) b (Z.abs_nonneg a) Hb) as Hm.
  destruct (Z.leb_spec overflow_bound (round_pos (Z.abs a) b)) as [|Hlt];
    [exact I|].
  pose proof (round_pos_significand (Z.abs a) b (Z.abs_nonneg a) Hb) as Hsig.
  unfold round_pos in *.
  set (k := Z.max 0 (Z.log2 (Z.abs a / b) - 52)) in *.
  set (m := rne (Z.abs a) (b * 2 ^ k)) in *.
  assert (Hp : 0 < 2 ^ k) by (apply Z.pow_pos_nonneg; lia).
  assert (Hm0 : 0 <= m) by nia.
  assert (Hw : 0 <= m * 2 ^ k) by nia.
  assert (Hs : Z.sgn a = 1 \/ Z.sgn a = 0 \/ Z.sgn a = -1)
    by (destruct a; cbn; auto).
  exists (Z.sgn a * m), k. repeat split.
  - destruct Hs as [E|[E|E]]; rewrite E; lia.
  - lia.
  - ring.
  - remember (m * 2 ^ k) as w. destruct Hs as [E|[E|E]]; rewrite E; lia.
Qed.

Lemma fadd_binary64 x y : binary64 (fadd x y).
Proof.
  destruct x as [|s|u], y as [|t|v]; try exact I.
  - cbn [fadd]. destruct (Bool.eqb s t); exact I.
  - apply round64_binary64. lia.
Qed.

Lemma fmul_binary64 x y : binary64 (fmul x y).
Proof.
  destruct x as [|s|u], y as [|t|v]; try exact I.
  - cbn [fmul]. destruct (v =? 0); exact I.
  - cbn [fmul]. destruct (u =? 0); exact I.
  - apply round64_binary64. exact unit_scale_pos.
Qed.

Lemma fdiv_binary64 x y : binary64 (fdiv x y).
Proof.
  destruct x as [|s|u], y as [|t|v]; try exact I.
  - exists 0, 0. pose proof overflow_bound_pos. cbn [Z.abs]. repeat split; lia.
  - cbn [fdiv]. destruct (Z.eqb_spec v 0) as [|Hv].
    + destruct (u =? 0); exact I.
    + apply round64_binary64. lia.
Qed.

Lemma fadd_comm x y : fadd x y = fadd y x.
Proof.
  destruct x as [|s|u], y as [|t|v]; try reflexivity.
  - destruct s, t; reflexivity.
  - unfold fadd. rewrite Z.add_comm. reflexivity.
Qed.

Lemma fadd_nonneg x y :
  number_input x -> number_input y -> number_input (fadd x y).
Proof.
  intros Hx Hy.
  destruct (number_input_cases x Hx) as [->|(u & -> & Hu)];
    destruct (number_input_cases y Hy) as [->|(v & -> & Hv)];
    try reflexivity.
  unfold fadd. apply round64_nonneg; lia.
Qed.

(** Addition is monotone in its first operand, on floats not below zero. *)
Lemma fadd_mono_l x x' y :
  number_input x -> number_input y -> fle x x' = true ->
  fle (fadd x y) (fadd x' y) = true.
Proof.
  intros Hx Hy Hle.
  assert (Hx' : number_input x') by (exact (fle_trans _ _ _ Hx Hle)).
  destruct (number_input_cases x Hx) as [->|(u & -> & Hu)];
    destruct (number_input_cases x' Hx') as [->|(u' & -> & Hu')];
    destruct (number_input_cases y Hy) as [->|(v & -> & Hv)];
    try reflexivity; try discriminate.
  - unfold fadd. apply fle_pos_inf. apply round64_not_nan.
  - unfold fadd. apply round64_mono; try lia.
    apply fle_Fin in Hle. lia.
Qed.

Lemma fadd_mono_r x y y' :
  number_input x -> number_input y -> fle y y' = true ->
  fle (fadd x y) (fadd x y') = true.
Proof.
  intros Hx Hy Hle. rewrite (fadd_comm x y), (fadd_comm x y').
  apply fadd_mono_l; assumption.
Qed.

(** Multiplication by a positive finite factor: sign and monotonicity. *)
Lemma fmul_fin_nonneg x v :
  number_input x -> 0 < v -> number_input (fmul x (Fin v)).
Proof.
  intros Hx Hv. pose proof unit_scale_pos.
  destruct (number_input_cases x Hx) as [->|(u & -> & Hu)].
  - unfold fmul. assert (E : (v =? 0) = false) by (apply Z.eqb_neq; lia).
    assert (E' : (v <? 0) = false) by (apply Z.ltb_ge; lia).
    rewrite E, E'. reflexivity.
  - unfold fmul. apply round64_nonneg; nia.
Qed.

Lemma fmul_fin_mono x x' v :
  number_input x -> 0 < v -> fle x x' = true ->
  fle (fmul x (Fin v)) (fmul x' (Fin v)) = true.
Proof.
  intros Hx Hv Hle. pose proof unit_scale_pos.
  assert (Hx' : number_input x') by (exact (fle_trans _ _ _ Hx Hle)).
  assert (E : (v =? 0) = false) by (apply Z.eqb_neq; lia).
  assert (E' : (v <? 0) = false) by (apply Z.ltb_ge; lia).
  destruct (number_input_cases x Hx) as [->|(u & -> & Hu)];
    destruct (number_input_cases x' Hx') as [->|(u' & -> & Hu')];
    try discriminate; unfold fmul; rewrite ?E, ?E'; try reflexivity.
  - apply fle_pos_inf. apply round64_not_nan.
  - apply round64_mono; try lia. apply fle_Fin in Hle.
    apply Z.mul_le_mono_nonneg_r; [lia|].
    apply Z.mul_le_mono_nonneg_r; lia.
Qed.

(** Multiplication of a positive float by a positive factor, which may be
    [+inf]. *)
Lemma fmul_pos_nonneg x y :
  flt zero x = true -> flt zero y = true -> number_input (fmul x y).
Proof.
  intros Hx Hy.
  destruct (positive_cases y Hy) as [->|(v & -> & Hv)].
  - destruct (positive_cases x Hx) as [->|(u & -> & Hu)]; [reflexivity|].
    unfold fmul. assert (E : (u =? 0) = false) by (apply Z.eqb_neq; lia).
    assert (E' : (u <? 0) = false) by (apply Z.ltb_ge; lia).
    rewrite E, E'. reflexivity.
  - apply fmul_fin_nonneg; [apply positive_number_input|]; assumption.
Qed.

Lemma fmul_pos_mono x x' y :
  flt zero x = true -> flt zero y = true -> fle x x' = true ->
  fle (fmul x y) (fmul x' y) = true.
Proof.
  intros Hx Hy Hle.
  destruct (positive_cases y Hy) as [->|(v & -> & Hv)].
  - destruct (positive_cases x Hx) as [->|(u & -> & Hu)].
    + destruct x' as [|[]|]; try discriminate. reflexivity.
    + destruct x' as [|[]|u']; try discriminate; unfold fmul.
      * assert (E : (u =? 0) = false) by (apply Z.eqb_neq; lia).
        assert (E' : (u <? 0) = false) by (apply Z.ltb_ge; lia).
        rewrite E, E'. reflexivity.
      * apply fle_Fin in Hle.
        assert (E : (u =? 0) = false) by (apply Z.eqb_neq; lia).
        assert (E' : (u <? 0) = false) by (apply Z.ltb_ge; lia).
        assert (F : (u' =? 0) = false) by (apply Z.eqb_neq; lia).
        assert (F' : (u' <? 0) = false) by (apply Z.ltb_ge; lia).
        rewrite E, E', F, F'. reflexivity.
  - apply fmul_fin_mono; [apply positive_number_input| |]; assumption.
Qed.

(* ================================================================== *)
(** * Sums and means of finite values *)
(* ================================================================== *)

Lemma one_eq : one = Fin unit_scale.
Proof. vm_compute. reflexivity. Qed.

Lemma one_positive : flt zero one = true.
Proof. rewrite one_eq. apply flt_Fin. exact unit_scale_pos. Qed.

(** Cleaning keeps exactly the finite values. *)
Lemma dropna_replace_inf l :
  dropna (map replace_inf l) = filter is_finite l.
Proof.
  unfold dropna. induction l as [|x l IH]; [reflexivity|].
  destruct x as [|s|u]; cbn [map filter replace_inf isna is_finite negb];
    rewrite IH; reflexivity.
Qed.




Lemma of_count_pos n :
  n <> O -> exists c, of_count n = Fin c /\ 0 < c.
Proof.
  intros Hn. unfold of_count. eexists. split; [reflexivity|].
  pose proof unit_scale_pos. apply round_pos_pos; [lia|]. nia.
Qed.



Lemma not_le_zero_positive x :
  isna x = false -> fle x zero = false -> flt zero x = true.
Proof.
  destruct x as [|[]|u]; intros H1 H2; try discriminate; try reflexivity.
  apply flt_Fin.
  destruct (Z.le_gt_cases u 0) as [Hle|Hgt]; [|exact Hgt].
  apply fle_Fin in Hle. unfold zero in H2. congruence.
Qed.

(** Whatever the rows hold, the base factor is above zero (hence not NaN
    and not negative): it is a positive finite float or [+inf]. *)
Lemma base_factor_positive crop_data : flt zero (base_factor crop_data) = true.
Proof.
  unfold base_factor. destruct (has_column _ _); [|exact one_positive].
  set (m := mean _).
  destruct (isna m) eqn:Hna; [exact one_positive|].
  destruct (fle m zero) eqn:Hle; [exact one_positive|].
  cbn [orb]. apply not_le_zero_positive; assumption.
Qed.

Lemma base_factor_positive_or_inf crop_data :
  base_factor crop_data = Inf false
  \/ exists u, base_factor crop_data = Fin u /\ 0 < u.
Proof. apply positive_cases, base_factor_positive. Qed.

(** The infinities and the missing values of the column have no part in
    the base factor: it is a function of the header and of the finite
    values. *)
Lemma base_factor_finite_values (cd cd' : DataFrame Yield.row) :
  columns cd = columns cd' ->
  filter is_finite (map Yield.carbon_footprint (rows cd))
  = filter is_finite (map Yield.carbon_footprint (rows cd')) ->
  base_factor cd = base_factor cd'.
Proof.
  intros Hc Hv. unfold base_factor, has_column.
  rewrite !dropna_replace_inf, Hc, Hv. reflexivity.
Qed.

(* ================================================================== *)
(** * Lower-casing and trimming *)
(* ================================================================== *)

Lemma lower_char_idem c : lower_char (lower_char c) = lower_char c.
Proof. destruct c as [[] [] [] [] [] [] [] []]; reflexivity. Qed.

Lemma isspace_lower_char c : isspace (lower_char c) = isspace c.
Proof. destruct c as [[] [] [] [] [] [] [] []]; reflexivity. Qed.

Lemma lower_idem s : lower (lower s) = lower s.
Proof.
  induction s as [|c s IH]; [reflexivity|].
  cbn [lower]. rewrite lower_char_idem, IH. reflexivity.
Qed.

Lemma lower_lstrip s : lower (lstrip s) = lstrip (lower s).
Proof.
  induction s as [|c s IH]; [reflexivity|].
  cbn [lower lstrip]. rewrite isspace_lower_char.
  destruct (isspace c); [exact IH|reflexivity].
Qed.

Lemma lower_rstrip s : lower (rstrip s) = rstrip (lower s).
Proof.
  induction s as [|c s IH]; [reflexivity|].
  cbn [lower rstrip]. rewrite <- IH, isspace_lower_char.
  destruct (rstrip s) as [|d t]; cbn [lower]; [|reflexivity].
  destruct (isspace c); reflexivity.
Qed.

Lemma lower_strip s : lower (strip s) = strip (lower s).
Proof. unfold strip. rewrite lower_rstrip, lower_lstrip. reflexivity. Qed.

Lemma lstrip_no_leading_space s : no_leading_space (lstrip s).
Proof.
  induction s as [|c s IH]; [exact I|].
  cbn [lstrip]. destruct (isspace c) eqn:E; [exact IH|exact E].
Qed.

Lemma lstrip_fixed s : no_leading_space s -> lstrip s = s.
Proof.
  destruct s as [|c s]; [reflexivity|].
  cbn [no_leading_space lstrip]. intros ->. reflexivity.
Qed.

Lemma rstrip_no_leading_space s :
  no_leading_space s -> no_leading_space (rstrip s).
Proof.
  destruct s as [|c s]; [intros _; exact I|].
  cbn [no_leading_space rstrip]. intros E.
  destruct (rstrip s); [rewrite E|]; exact E.
Qed.

Lemma rstrip_idem s : rstrip (rstrip s) = rstrip s.
Proof.
  induction s as [|c s IH]; [reflexivity|].
  cbn [rstrip]. destruct (rstrip s) as [|d t] eqn:E.
  - destruct (isspace c) eqn:Ec; [reflexivity|].
    cbn [rstrip]. rewrite Ec. reflexivity.
  - cbn [rstrip] in IH |- *. rewrite IH. 
    destruct t; reflexivity.
Qed.

Lemma strip_idem s : strip (strip s) = strip s.
Proof.
  unfold strip.
  rewrite (lstrip_fixed (rstrip (lstrip s))).
  - apply rstrip_idem.
  - apply rstrip_no_leading_space, lstrip_no_leading_space.
Qed.

(* ================================================================== *)
(** * Dropping duplicates *)
(* ================================================================== *)

Lemma drop_duplicates_seen_In seen l y :
  In y (drop_duplicates_seen seen l) <-> In y l /\ ~ In y seen.
Proof.
  revert seen. induction l as [|x l IH]; intros seen; cbn [drop_duplicates_seen].
  - cbn. tauto.
  - destruct (in_dec cell_eq_dec x seen) as [Hin|Hnin].
    + rewrite IH. cbn [In]. split.
      * intros [H1 H2]. auto.
      * intros [[->|H1] H2]; [contradiction|auto].
    + cbn [In]. rewrite IH. cbn [In]. split.
      * intros [->|[H1 H2]]; [auto|]. split; [auto|]. intros H; apply H2; auto.
      * intros [[->|H1] H2]; [auto|].
        destruct (cell_eq_dec x y) as [->|Hne]; [auto|].
        right. split; [assumption|]. intros [E|H]; [contradiction|auto].
Qed.

Lemma drop_duplicates_seen_NoDup seen l : NoDup (drop_duplicates_seen seen l).
Proof.
  revert seen. induction l as [|x l IH]; intros seen; cbn [drop_duplicates_seen].
  - constructor.
  - destruct (in_dec cell_eq_dec x seen); [apply IH|].
    constructor; [|apply IH].
    rewrite drop_duplicates_seen_In. intros [_ H]. apply H. left; reflexivity.
Qed.

(** The kept values follow each other in the order of their first
    occurrences. *)
Lemma drop_duplicates_seen_order seen l :
  StronglySorted lt
    (map (fun x => first_index x l) (drop_duplicates_seen seen l)).
Proof.
  revert seen. induction l as [|x l IH]; intros seen; cbn [drop_duplicates_seen].
  - constructor.
  - assert (Hmap : forall s, In x s ->
      map (fun y => first_index y (x :: l)) (drop_duplicates_seen s l)
      = map S (map (fun y => first_index y l) (drop_duplicates_seen s l))).
    { intros s Hs. rewrite map_map. apply map_ext_in. intros y Hy.
      apply drop_duplicates_seen_In in Hy. destruct Hy as [_ Hy].
      cbn [first_index]. destruct (cell_eq_dec y x) as [->|]; [contradiction|].
      reflexivity. }
    assert (Hsucc : forall m, StronglySorted lt m -> StronglySorted lt (map S m)).
    { induction 1 as [|a m Hm IHm Ha]; cbn [map]; constructor; [assumption|].
      apply Forall_forall. intros b Hb. apply in_map_iff in Hb.
      destruct Hb as (b' & <- & Hb').
      rewrite Forall_forall in Ha. specialize (Ha b' Hb'). lia. }
    destruct (in_dec cell_eq_dec x seen) as [Hin|Hnin].
    + rewrite (Hmap seen Hin). apply Hsucc, IH.
    + cbn [map]. rewrite (Hmap (x :: seen)) by (left; reflexivity).
      constructor; [apply Hsucc, IH|].
      cbn [first_index]. destruct (cell_eq_dec x x); [|contradiction].
      apply Forall_forall. intros b Hb. apply in_map_iff in Hb.
      destruct Hb as (b' & <- & _). lia.
Qed.




(* ================================================================== *)
(** * The float operations against [SpecFloat] *)
(* ================================================================== *)

(** On the operands of the specification's example, on an overflow and on
    subnormal results, the operations above agree with the Standard
    Library's IEEE 754 operations at precision 53 and [emax = 1024]. *)
Example literal_matches_SpecFloat :
  of_spec_float
    (SFdiv 53 1024 (to_spec_float (literal 2 1)) (to_spec_float (literal 1000 1)))
  = literal 2 1000
  /\ of_spec_float
    (SFdiv 53 1024 (to_spec_float (literal 2012 1)) (to_spec_float (literal 100 1)))
  = literal 2012 100.
Proof. split; vm_compute; reflexivity. Qed.

Example fmul_matches_SpecFloat :
  of_spec_float
    (SFmul 53 1024 (to_spec_float (literal 50 1)) (to_spec_float fertilizer_factor))
  = fmul (literal 50 1) fertilizer_factor
  /\ of_spec_float
    (SFmul 53 1024 (to_spec_float (literal 20 1)) (to_spec_float pesticide_factor))
  = fmul (literal 20 1) pesticide_factor
  /\ of_spec_float (SFmul 53 1024 (to_spec_float huge) (to_spec_float huge))
  = fmul huge huge
  /\ of_spec_float
    (SFmul 53 1024 (to_spec_float (Fin 3)) (to_spec_float (literal 1 2)))
  = fmul (Fin 3) (literal 1 2).
Proof. repeat split; vm_compute; reflexivity. Qed.

Example fadd_matches_SpecFloat :
  of_spec_float
    (SFadd 53 1024 (to_spec_float (literal 20 1)) (to_spec_float (literal 1 10)))
  = fadd (literal 20 1) (literal 1 10)
  /\ of_spec_float
    (SFadd 53 1024 (to_spec_float (literal 201 10)) (to_spec_float (literal 2 100)))
  = fadd (literal 201 10) (literal 2 100)
  /\ of_spec_float (SFadd 53 1024 (to_spec_float huge) (to_spec_float huge))
  = fadd huge huge.
Proof. repeat split; vm_compute; reflexivity. Qed.

Example fdiv_matches_SpecFloat :
  of_spec_float
    (SFdiv 53 1024 (to_spec_float (literal 7 1)) (to_spec_float (of_count 3)))
  = fdiv (literal 7 1) (of_count 3)
  /\ of_spec_float
    (SFdiv 53 1024 (to_spec_float (Fin 1)) (to_spec_float (of_count 3)))
  = fdiv (Fin 1) (of_count 3)
  /\ of_spec_float
    (SFdiv 53 1024 (to_spec_float (Inf false)) (to_spec_float (of_count 2)))
  = fdiv (Inf false) (of_count 2).
Proof. repeat split; vm_compute; reflexivity. Qed.

(** The floats of the examples are binary64 numbers: [SpecFloat] holds them
    in canonical form and without rounding. *)
Example examples_are_binary64 :
  Forall (fun x => valid_binary 53 1024 (to_spec_float x) = true
                   /\ of_spec_float (to_spec_float x) = x)
    [literal 2 1; literal 10 1; literal 50 1; literal 20 1; literal 2012 100;
     fertilizer_factor; pesticide_factor; one; huge].
Proof. repeat constructor; vm_compute; reflexivity. Qed.

(* ================================================================== *)
(** * The footprint estimate *)
(* ================================================================== *)

Lemma has_column_crop_data name df crop :
  has_column name (crop_data df crop) = has_column name df.
Proof. reflexivity. Qed.

Lemma fertilizer_factor_pos : exists c, fertilizer_factor = Fin c /\ 0 < c.
Proof. eexists. split; [vm_compute; reflexivity|reflexivity]. Qed.

Lemma pesticide_factor_pos : exists c, pesticide_factor = Fin c /\ 0 < c.
Proof. eexists. split; [vm_compute; reflexivity|reflexivity]. Qed.

(** When the area is positive and the crop has rows, the page displays
    the estimate of line 96. *)
Lemma analyse_present df measures crop area fertilizer pesticide :
  fgt area zero = true ->
  empty (crop_data df crop) = false ->
  analyse df measures (Some crop) area fertilizer pesticide
  = Analysis
      (predicted_cf area (base_factor (crop_data df crop)) fertilizer pesticide)
      (show_measures measures crop).
Proof.
  intros Harea Hrows. unfold analyse. rewrite Harea, Hrows. reflexivity.
Qed.

Section Monotone.

(** The footprint of line 96 for a positive area, a positive base factor
    and two values of the number inputs. *)
Variables area base_factor fertilizer pesticide : float64.
Hypothesis area_positive : flt zero area = true.
Hypothesis base_factor_above_zero : flt zero base_factor = true.
Hypothesis fertilizer_input : number_input fertilizer.
Hypothesis pesticide_input : number_input pesticide.

(** The three products are not below zero. *)
Lemma area_term_nonneg : number_input (fmul area base_factor).
Proof. apply fmul_pos_nonneg; assumption. Qed.

Lemma fertilizer_term_nonneg : number_input (fmul fertilizer fertilizer_factor).
Proof.
  destruct fertilizer_factor_pos as (c & -> & Hc).
  apply fmul_fin_nonneg; assumption.
Qed.

Lemma pesticide_term_nonneg : number_input (fmul pesticide pesticide_factor).
Proof.
  destruct pesticide_factor_pos as (c & -> & Hc).
  apply fmul_fin_nonneg; assumption.
Qed.

Lemma predicted_cf_mono_area area' :
  fle area area' = true ->
  fle (predicted_cf area base_factor fertilizer pesticide)
      (predicted_cf area' base_factor fertilizer pesticide) = true.
Proof.
  intros Hle. unfold predicted_cf.
  pose proof area_term_nonneg. pose proof fertilizer_term_nonneg.
  pose proof pesticide_term_nonneg.
  apply fadd_mono_l; [apply fadd_nonneg; assumption|assumption|].
  apply fadd_mono_l; [assumption|assumption|].
  apply fmul_pos_mono; assumption.
Qed.

Lemma predicted_cf_mono_fertilizer fertilizer' :
  fle fertilizer fertilizer' = true ->
  fle (predicted_cf area base_factor fertilizer pesticide)
      (predicted_cf area base_factor fertilizer' pesticide) = true.
Proof.
  intros Hle. unfold predicted_cf.
  pose proof area_term_nonneg. pose proof fertilizer_term_nonneg.
  pose proof pesticide_term_nonneg.
  apply fadd_mono_l; [apply fadd_nonneg; assumption|assumption|].
  apply fadd_mono_r; [assumption|assumption|].
  destruct fertilizer_factor_pos as (c & -> & Hc).
  apply fmul_fin_mono; assumption.
Qed.

Lemma predicted_cf_mono_pesticide pesticide' :
  fle pesticide pesticide' = true ->
  fle (predicted_cf area base_factor fertilizer pesticide)
      (predicted_cf area base_factor fertilizer pesticide') = true.
Proof.
  intros Hle. unfold predicted_cf.
  pose proof area_term_nonneg. pose proof fertilizer_term_nonneg.
  pose proof pesticide_term_nonneg.
  apply fadd_mono_r; [apply fadd_nonneg; assumption|assumption|].
  destruct pesticide_factor_pos as (c & -> & Hc).
  apply fmul_fin_mono; assumption.
Qed.

End Monotone.



Lemma select_crop_spec_filter {R : Type} (crop_of : R -> option string)
    (df : DataFrame R) (crop : string) :
  rows (select_crop crop_of df (lower crop))
  = filter (fun r => match crop_of r with
                     | Some c => String.eqb (lower c) (lower crop)
                     | None => false
                     end) (rows df).
Proof.
  unfold select_crop. cbn [rows]. apply filter_ext. intros r.
  destruct (crop_of r); reflexivity.
Qed.


(** C6: for a fixed yield table and a crop that has rows there, the
    footprint the page displays does not decrease when one of area,
    fertilizer and pesticide increases and the other two stay fixed; the
    inputs are values of the number inputs (not below zero) and the area is
    positive. *)
Theorem C6_footprint_monotone df measures crop area fertilizer pesticide :
  empty (crop_data df crop) = false ->
  fgt area zero = true ->
  number_input fertilizer ->
  number_input pesticide ->
  exists cf,
    footprint (analyse df measures (Some crop) area fertilizer pesticide)
    = Some cf
    /\ (forall area', fle area area' = true ->
          exists cf',
            footprint (analyse df measures (Some crop) area' fertilizer pesticide)
            = Some cf' /\ fle cf cf' = true)
    /\ (forall fertilizer', fle fertilizer fertilizer' = true ->
          exists cf',
            footprint (analyse df measures (Some crop) area fertilizer' pesticide)
            = Some cf' /\ fle cf cf' = true)
    /\ (forall pesticide', fle pesticide pesticide' = true ->
          exists cf',
            footprint (analyse df measures (Some crop) area fertilizer pesticide')
            = Some cf' /\ fle cf cf' = true).
Proof.
  intros Hrows Harea Hf Hp.
  pose proof (base_factor_positive (crop_data df crop)) as Hb.
  assert (Ha : flt zero area = true) by exact Harea.
  eexists. split; [|split; [|split]].
  - rewrite (analyse_present _ _ _ _ _ _ Harea Hrows). reflexivity.
  - intros area' Hle.
    assert (Harea' : fgt area' zero = true).
    { unfold fgt.
      destruct (positive_cases area Ha) as [->|(u & -> & Hu)];
        destruct area' as [|[]|u']; try discriminate; try reflexivity.
      apply fle_Fin in Hle. apply flt_Fin. lia. }
    eexists. split.
    + rewrite (analyse_present _ _ _ _ _ _ Harea' Hrows). reflexivity.
    + apply predicted_cf_mono_area; assumption.
  - intros fertilizer' Hle. eexists. split.
    + rewrite (analyse_present _ _ _ _ _ _ Harea Hrows). reflexivity.
    + apply predicted_cf_mono_fertilizer; assumption.
  - intros pesticide' Hle. eexists. split.
    + rewrite (analyse_present _ _ _ _ _ _ Harea Hrows). reflexivity.
    + apply predicted_cf_mono_pesticide; assumption.
Qed.

Lemma C6_footprint_monotone_witness :
  exists cf,
    footprint (analyse rice_table wheat_measures (Some "Rice"%string)
                 (literal 10 1) (literal 50 1) (literal 20 1)) = Some cf
    /\ (forall area', fle (literal 10 1) area' = true ->
          exists cf',
            footprint (analyse rice_table wheat_measures (Some "Rice"%string)
                         area' (literal 50 1) (literal 20 1))
            = Some cf' /\ fle cf cf' = true)
    /\ (forall fertilizer', fle (literal 50 1) fertilizer' = true ->
          exists cf',
            footprint (analyse rice_table wheat_measures (Some "Rice"%string)
                         (literal 10 1) fertilizer' (literal 20 1))
            = Some cf' /\ fle cf cf' = true)
    /\ (forall pesticide', fle (literal 20 1) pesticide' = true ->
          exists cf',
            footprint (analyse rice_table wheat_measures (Some "Rice"%string)
                         (literal 10 1) (literal 50 1) pesticide')
            = Some cf' /\ fle cf cf' = true).
Proof.
  apply (C6_footprint_monotone rice_table wheat_measures "Rice"
           (literal 10 1) (literal 50 1) (literal 20 1)).
  - vm_compute. reflexivity.
  - vm_compute. reflexivity.
  - vm_compute. reflexivity.
  - vm_compute. reflexivity.
Defined.

(** C7, at the input on which it fails: two Rice rows whose
    [carbon_footprint] values are finite ([1.7e308] each) and whose sum
    overflows.  The mean is [+inf], which is neither missing nor [<= 0], so
    the base factor is [+inf] and so is the footprint displayed. *)
Theorem C7_base_factor_overflow :
  Forall (fun r => is_finite (Yield.carbon_footprint r) = true)
    (rows huge_table)
  /\ base_factor (crop_data huge_table "Rice") = Inf false
  /\ footprint (analyse huge_table wheat_measures (Some "Rice"%string)
                  (literal 10 1) (literal 50 1) (literal 20 1))
     = Some (Inf false).
Proof.
  split; [|split].
  - repeat constructor.
  - vm_compute. reflexivity.
  - vm_compute. reflexivity.
Qed.

(* ================================================================== *)
(** * Unknown crops, case and the area guard *)
(* ================================================================== *)








(** C9: with [area = 0] the guard of line 76 is false, so the page neither
    estimates nor looks up measures, whatever the crop, the fertilizer and
    the pesticide: no footprint and no measures are produced, and nothing
    is raised even when no crop could be selected. *)
Theorem C9_zero_area_not_analysed df measures fertilizer pesticide :
  (forall selected_crop,
     analyse df measures selected_crop zero fertilizer pesticide = NotAnalysed)
  /\ (forall choice,
        crop_analysis df measures choice zero fertilizer pesticide = NotAnalysed
        /\ footprint
             (crop_analysis df measures choice zero fertilizer pesticide) = None
        /\ measures_of
             (crop_analysis df measures choice zero fertilizer pesticide) = []).
Proof.
  assert (H : forall selected_crop,
    analyse df measures selected_crop zero fertilizer pesticide = NotAnalysed).
  { intros selected_crop. unfold analyse, fgt, flt.
    cbn [fcompare zero]. rewrite Z.compare_refl. reflexivity. }
  split; [exact H|].
  intros choice. unfold crop_analysis. rewrite H. repeat split.
Qed.




(* ================================================================== *)
(** * Recommendations and the loader *)
(* ================================================================== *)

Lemma unique_measures_matching measures crop :
  map Measures.necessary_measures (rows (crop_measures measures crop))
  = matching_measures measures crop.
Proof.
  unfold crop_measures, matching_measures.
  rewrite select_crop_spec_filter. reflexivity.
Qed.

(** What the page writes is the de-duplicated column of the matching rows,
    also when there is none. *)
Lemma written_measures_show measures crop :
  written_measures (show_measures measures crop)
  = drop_duplicates (matching_measures measures crop).
Proof.
  unfold show_measures, unique_measures.
  rewrite <- unique_measures_matching. unfold empty.
  destruct (rows (crop_measures measures crop)); reflexivity.
Qed.





(** The loader on a header as a CSV file may have it. *)
Example load_data_example :
  columns (fst (load_data
                  (mkFrame [" Crop"; "Carbon_Footprint "]%string
                           (rows rice_table))
                  (mkFrame ["CROP"; " Necessary_Measures"]%string
                           (rows wheat_measures))))
  = yield_header
  /\ has_column "carbon_footprint"
       (fst (load_data
               (mkFrame [" Crop"; "Carbon_Footprint "]%string
                        (rows rice_table))
               wheat_measures)) = true.
Proof. split; vm_compute; reflexivity. Qed.

(* ================================================================== *)
(** * Exact operations *)
(* ================================================================== *)

(** A number that is on the grid is its own rounding. *)
Lemma round_pos_exact m e :
  0 <= m <= 2 ^ 53 -> 0 <= e -> round_pos (m * 2 ^ e) 1 = m * 2 ^ e.
Proof.
  intros Hm He. unfold round_pos. rewrite Z.div_1_r, Z.mul_1_l.
  set (u := m * 2 ^ e). set (k := Z.max 0 (Z.log2 u - 52)).
  assert (Hk : 0 <= k) by lia.
  assert (Hp : 0 < 2 ^ k) by (apply Z.pow_pos_nonneg; lia).
  assert (Hq : exists q, u = q * 2 ^ k).
  { destruct (Z.eq_dec m 0) as [->|Hm0].
    - exists 0. unfold u. lia.
    - destruct (Z.eq_dec m (2 ^ 53)) as [E53|Hne].
      + assert (Hu : u = 2 ^ (53 + e))
          by (unfold u; rewrite E53, <- Z.pow_add_r by lia; reflexivity).
        assert (Hl : Z.log2 u = 53 + e)
          by (rewrite Hu; apply Z.log2_pow2; lia).
        exists (2 ^ 52). replace k with (e + 1) by lia.
        rewrite Hu, <- Z.pow_add_r by lia. f_equal. lia.
      + assert (Hl : Z.log2 u = e + Z.log2 m)
          by (unfold u; apply Z.log2_mul_pow2; lia).
        assert (Hlm : Z.log2 m < 53) by (apply Z.log2_lt_pow2; lia).
        exists (m * 2 ^ (e - k)). unfold u.
        rewrite <- Z.mul_assoc, <- Z.pow_add_r by lia.
        do 2 f_equal. lia. }
  destruct Hq as (q & Hq). rewrite Hq. unfold rne.
  rewrite Z.div_mul, Z.mod_mul by lia.
  replace (2 * 0 ?= 2 ^ k) with Lt by (symmetry; apply Z.compare_lt_iff; lia).
  reflexivity.
Qed.

Lemma round64_exact u : binary64 (Fin u) -> round64 u 1 = Fin u.
Proof.
  intros (m & e & Hm & He & Hu & Hb). unfold round64.
  assert (Habs : Z.abs u = Z.abs m * 2 ^ e).
  { rewrite Hu, Z.abs_mul. f_equal. apply Z.abs_eq.
    apply Z.pow_nonneg. lia. }
  rewrite Habs, round_pos_exact by (pose proof (Z.abs_nonneg m); lia).
  rewrite <- Habs.
  destruct (Z.leb_spec overflow_bound (Z.abs u)); [lia|].
  f_equal. rewrite Z.mul_comm. apply Z.abs_sgn.
Qed.

Lemma rne_scale a c s : 0 < c -> 0 < s -> rne (a * s) (c * s) = rne a c.
Proof.
  intros Hc Hs. unfold rne.
  rewrite Z.div_mul_cancel_r, Z.mul_mod_distr_r by lia.
  replace (2 * (a mod c * s)) with (2 * (a mod c) * s) by ring.
  destruct (Z.compare_spec (2 * (a mod c) * s) (c * s));
    destruct (Z.compare_spec (2 * (a mod c)) c); try reflexivity; nia.
Qed.

(** Rounding depends on the rational only, not on the fraction that
    denotes it. *)
Lemma round64_scale a b s :
  0 < b -> 0 < s -> round64 (a * s) (b * s) = round64 a b.
Proof.
  intros Hb Hs. unfold round64, round_pos.
  rewrite Z.abs_mul, (Z.abs_eq s) by lia.
  rewrite Z.div_mul_cancel_r by lia.
  set (k := Z.max 0 (Z.log2 (Z.abs a / b) - 52)).
  assert (Hp : 0 < 2 ^ k) by (apply Z.pow_pos_nonneg; lia).
  replace (b * s * 2 ^ k) with (b * 2 ^ k * s) by ring.
  rewrite rne_scale by nia.
  rewrite Z.sgn_mul, (Z.sgn_pos s), Z.mul_1_r by lia.
  replace (a * s <? 0) with (a <? 0); [reflexivity|].
  destruct (Z.ltb_spec a 0); symmetry;
    [apply Z.ltb_lt|apply Z.ltb_ge]; nia.
Qed.

Lemma fadd_zero_l x : binary64 x -> fadd zero x = x.
Proof.
  destruct x as [|s|u]; intros Hx; try reflexivity.
  cbn [fadd zero]. rewrite Z.add_0_l. apply round64_exact. exact Hx.
Qed.

Lemma fmul_one_r x : binary64 x -> fmul x one = x.
Proof.
  intros Hx. rewrite one_eq. pose proof unit_scale_pos as Hs.
  destruct x as [|s|u]; try reflexivity.
  - cbn [fmul]. assert (E : (unit_scale =? 0) = false) by (apply Z.eqb_neq; lia).
    assert (E' : (unit_scale <? 0) = false) by (apply Z.ltb_ge; lia).
    rewrite E, E'. destruct s; reflexivity.
  - cbn [fmul]. rewrite <- (Z.mul_1_l unit_scale) at 2.
    rewrite round64_scale by lia. apply round64_exact. exact Hx.
Qed.

Lemma of_count_one : of_count 1 = one.
Proof. vm_compute. reflexivity. Qed.

Lemma fdiv_one_r x : binary64 x -> fdiv x one = x.
Proof.
  intros Hx. rewrite one_eq. pose proof unit_scale_pos as Hs.
  destruct x as [|s|u]; try reflexivity.
  - cbn [fdiv]. assert (E' : (unit_scale <? 0) = false) by (apply Z.ltb_ge; lia).
    rewrite E'. destruct s; reflexivity.
  - cbn [fdiv]. assert (E : (unit_scale =? 0) = false) by (apply Z.eqb_neq; lia).
    rewrite E, Z.sgn_pos, Z.abs_eq, Z.mul_1_l by lia.
    rewrite <- (Z.mul_1_l unit_scale) at 2.
    rewrite round64_scale by lia. apply round64_exact. exact Hx.
Qed.

(** The mean of a single binary64 value is that value. *)
Lemma mean_single x : binary64 x -> mean [x] = x.
Proof.
  intros Hx. unfold mean, sum. cbn [fold_left List.length].
  rewrite of_count_one, fadd_zero_l, fdiv_one_r by assumption. reflexivity.
Qed.

(* ================================================================== *)
(** * Further properties of the base factor and the footprint *)
(* ================================================================== *)

Lemma one_binary64 : binary64 one.
Proof. apply round64_binary64. lia. Qed.

Lemma mean_binary64 l : binary64 (mean l).
Proof. destruct l; [exact I|apply fdiv_binary64]. Qed.

(** X1: whatever the rows of the crop hold, the base factor of lines 84-89
    is a binary64 number above zero: it is not NaN, not zero, not negative
    and not [-inf]. *)
Theorem X1_base_factor_above_zero crop_data :
  isna (base_factor crop_data) = false
  /\ fle (base_factor crop_data) zero = false
  /\ flt zero (base_factor crop_data) = true
  /\ binary64 (base_factor crop_data).
Proof.
  pose proof (base_factor_positive crop_data) as Hpos.
  split; [|split; [|split]].
  - destruct (positive_cases _ Hpos) as [->|(u & -> & _)]; reflexivity.
  - destruct (positive_cases _ Hpos) as [->|(u & -> & Hu)]; [reflexivity|].
    destruct (fle (Fin u) zero) eqn:E; [|reflexivity].
    apply fle_Fin in E. lia.
  - exact Hpos.
  - unfold base_factor. destruct (has_column _ _); [|exact one_binary64].
    destruct (isna _ || fle _ zero); [exact one_binary64|apply mean_binary64].
Qed.

(** X2: for a positive area, fertilizer and pesticide not below zero and a
    crop that has rows, the footprint displayed (line 96) is a binary64
    number that is not NaN and not below zero. *)
Theorem X2_footprint_not_negative df measures crop area fertilizer pesticide :
  fgt area zero = true ->
  number_input fertilizer ->
  number_input pesticide ->
  empty (crop_data df crop) = false ->
  exists cf,
    footprint (analyse df measures (Some crop) area fertilizer pesticide)
    = Some cf
    /\ isna cf = false /\ fle zero cf = true /\ binary64 cf.
Proof.
  intros Harea Hf Hp Hrows.
  rewrite (analyse_present _ _ _ _ _ _ Harea Hrows). cbn [footprint].
  eexists. split; [reflexivity|].
  pose proof (base_factor_positive (crop_data df crop)) as Hb.
  assert (Hcf : number_input
                  (predicted_cf area (base_factor (crop_data df crop))
                     fertilizer pesticide)).
  { unfold predicted_cf. apply fadd_nonneg; [apply fadd_nonneg|].
    - apply area_term_nonneg; assumption.
    - apply fertilizer_term_nonneg; assumption.
    - apply pesticide_term_nonneg; assumption. }
  split; [|split].
  - destruct (number_input_cases _ Hcf) as [->|(u & -> & _)]; reflexivity.
  - exact Hcf.
  - apply fadd_binary64.
Qed.

Lemma X2_footprint_not_negative_witness :
  exists cf,
    footprint (analyse rice_table wheat_measures (Some "RICE"%string)
                 (literal 1 10) zero (literal 3 1)) = Some cf
    /\ isna cf = false /\ fle zero cf = true /\ binary64 cf.
Proof.
  apply (X2_footprint_not_negative rice_table wheat_measures "RICE"
           (literal 1 10) zero (literal 3 1)).
  - vm_compute. reflexivity.
  - vm_compute. reflexivity.
  - vm_compute. reflexivity.
  - vm_compute. reflexivity.
Defined.

(** X8: when the column is present and the rows of the crop hold exactly
    one finite value, a positive binary64 number, the base factor is that
    value, without rounding; infinite and missing cells beside it do not
    count. *)
Theorem X8_base_factor_single_value crop_data v :
  has_column "carbon_footprint" crop_data = true ->
  filter is_finite (map Yield.carbon_footprint (rows crop_data)) = [v] ->
  binary64 v ->
  flt zero v = true ->
  base_factor crop_data = v.
Proof.
  intros Hcol Hvals Hv Hpos. unfold base_factor.
  rewrite Hcol, dropna_replace_inf, Hvals, mean_single by exact Hv.
  destruct (positive_cases v Hpos) as [->|(u & -> & Hu)]; [reflexivity|].
  cbn [isna orb]. destruct (fle (Fin u) zero) eqn:E; [|reflexivity].
  apply fle_Fin in E. lia.
Qed.

Lemma X8_base_factor_single_value_witness :
  base_factor
    (mkFrame yield_header
       [Yield.mk (Some "Rice"%string) (Inf false);
        Yield.mk (Some "Rice"%string) (literal 5 2);
        Yield.mk (Some "Rice"%string) NaN])
  = literal 5 2.
Proof.
  apply X8_base_factor_single_value.
  - vm_compute. reflexivity.
  - vm_compute. reflexivity.
  - apply round64_binary64. lia.
  - vm_compute. reflexivity.
Defined.

(** X9: when the yield table has no [carbon_footprint] column, the base
    factor is [1.0] and the area enters the footprint unchanged: the page
    displays [area + fertilizer * 0.002 + pesticide * 0.001]. *)
Theorem X9_footprint_without_column df measures crop area fertilizer pesticide :
  has_column "carbon_footprint" df = false ->
  binary64 area ->
  fgt area zero = true ->
  empty (crop_data df crop) = false ->
  base_factor (crop_data df crop) = one
  /\ footprint (analyse df measures (Some crop) area fertilizer pesticide)
     = Some (fadd (fadd area (fmul fertilizer (literal 2 1000)))
                  (fmul pesticide (literal 1 1000))).
Proof.
  intros Hcol Hbin Harea Hrows.
  assert (Hb : base_factor (crop_data df crop) = one).
  { unfold base_factor. rewrite has_column_crop_data, Hcol. reflexivity. }
  split; [exact Hb|].
  rewrite (analyse_present _ _ _ _ _ _ Harea Hrows). cbn [footprint].
  unfold predicted_cf. rewrite Hb, fmul_one_r by exact Hbin. reflexivity.
Qed.

Lemma X9_footprint_without_column_witness :
  base_factor
    (crop_data (mkFrame ["crop"%string] (rows rice_table)) "rice") = one
  /\ footprint
       (analyse (mkFrame ["crop"%string] (rows rice_table)) wheat_measures
          (Some "rice"%string) (literal 10 1) (literal 50 1) (literal 20 1))
     = Some (fadd (fadd (literal 10 1) (fmul (literal 50 1) (literal 2 1000)))
                  (fmul (literal 20 1) (literal 1 1000))).
Proof.
  apply X9_footprint_without_column.
  - vm_compute. reflexivity.
  - apply round64_binary64. lia.
  - vm_compute. reflexivity.
  - vm_compute. reflexivity.
Defined.

Lemma round64_zero : round64 0 1 = zero.
Proof. vm_compute. reflexivity. Qed.

Lemma fadd_nonpos acc x :
  fle acc zero = true -> is_finite x = true -> fle x zero = true ->
  fle (fadd acc x) zero = true.
Proof.
  destruct acc as [|[]|a], x as [|t|b]; intros Ha Hfin Hx;
    try discriminate; try reflexivity.
  apply fle_Fin in Ha. apply fle_Fin in Hx. cbn [fadd].
  rewrite <- round64_zero. apply round64_mono; lia.
Qed.

Lemma fold_fadd_nonpos l : forall acc,
  Forall (fun x => is_finite x = true /\ fle x zero = true) l ->
  fle acc zero = true -> fle (fold_left fadd l acc) zero = true.
Proof.
  induction l as [|x l IH]; intros acc Hl Hacc; [exact Hacc|].
  inversion Hl as [|? ? [Hfin Hx] Hl']; subst. cbn [fold_left].
  apply IH; [assumption|]. apply fadd_nonpos; assumption.
Qed.

Lemma fdiv_nonpos x c :
  fle x zero = true -> 0 < c -> fle (fdiv x (Fin c)) zero = true.
Proof.
  intros Hx Hc. pose proof unit_scale_pos.
  destruct x as [|[]|u]; try discriminate.
  - cbn [fdiv]. assert (E : (c <? 0) = false) by (apply Z.ltb_ge; lia).
    rewrite E. reflexivity.
  - apply fle_Fin in Hx. cbn [fdiv].
    assert (E : (c =? 0) = false) by (apply Z.eqb_neq; lia).
    rewrite E, Z.sgn_pos, Z.abs_eq, Z.mul_1_l by lia.
    rewrite <- round64_zero. apply round64_mono; try lia; nia.
Qed.

(** X12: when none of the finite [carbon_footprint] values of the crop's
    rows is above zero (all are zero or negative, or there is none), the
    guard of line 86 replaces the mean: the base factor is exactly [1.0]. *)
Theorem X12_base_factor_default_when_not_positive crop_data :
  Forall (fun x => is_finite x = true -> fle x zero = true)
    (map Yield.carbon_footprint (rows crop_data)) ->
  base_factor crop_data = one.
Proof.
  intros Hall. unfold base_factor.
  destruct (has_column _ _); [|reflexivity].
  rewrite dropna_replace_inf.
  set (vals := filter is_finite _).
  assert (Hvals : Forall (fun x => is_finite x = true /\ fle x zero = true) vals).
  { apply Forall_forall. intros x Hx. apply filter_In in Hx.
    destruct Hx as [Hin Hfin]. split; [exact Hfin|].
    rewrite Forall_forall in Hall. exact (Hall x Hin Hfin). }
  destruct vals as [|x vals]; [reflexivity|].
  assert (Hle : fle (mean (x :: vals)) zero = true).
  { unfold mean.
    destruct (of_count_pos (List.length (x :: vals))) as (c & -> & Hc);
      [discriminate|].
    apply fdiv_nonpos; [|exact Hc].
    unfold sum. apply fold_fadd_nonpos; [exact Hvals|reflexivity]. }
  rewrite Hle, orb_true_r. reflexivity.
Qed.

Lemma X12_base_factor_default_when_not_positive_witness :
  base_factor
    (mkFrame yield_header
       [Yield.mk (Some "Rice"%string) zero;
        Yield.mk (Some "Rice"%string) (Inf false);
        Yield.mk (Some "Rice"%string) (literal (-3) 1)])
  = one.
Proof.
  apply X12_base_factor_default_when_not_positive.
  repeat constructor; intros; try discriminate; vm_compute; reflexivity.
Defined.

(* ================================================================== *)
(** * Further properties of the crop list, the selection and the loader *)
(* ================================================================== *)

(** X3: the options of the select box (line 70) are the values of the
    crop column, each once, in the order of their first occurrences; a
    missing cell, if there is one, is an option too. *)
Theorem X3_crop_list_distinct_in_order df :
  NoDup (crop_list df)
  /\ (forall c, In c (crop_list df) <-> In c (map Yield.crop (rows df)))
  /\ StronglySorted lt
       (map (fun c => first_index c (map Yield.crop (rows df))) (crop_list df)).
Proof.
  unfold crop_list, drop_duplicates. split; [|split].
  - apply drop_duplicates_seen_NoDup.
  - intros c. rewrite drop_duplicates_seen_In. cbn [In]. tauto.
  - apply drop_duplicates_seen_order.
Qed.



(** X5: when the area is positive and the select box has nothing to offer
    (the yield table has no row) or the option picked is a missing crop
    cell, [selected_crop.lower()] on line 77 fails: the page stops on an
    AttributeError and displays no footprint. *)
Theorem X5_no_crop_name_raises df measures choice area fertilizer pesticide :
  fgt area zero = true ->
  rows df = [] \/ nth_error (crop_list df) choice = Some None ->
  crop_analysis df measures choice area fertilizer pesticide
  = Raised AttributeError
  /\ footprint (crop_analysis df measures choice area fertilizer pesticide)
     = None.
Proof.
  intros Harea Hsel.
  assert (Hnone : selectbox (crop_list df) choice = None).
  { unfold selectbox. destruct Hsel as [Hrows|Hnth].
    - unfold crop_list. rewrite Hrows. destruct choice; reflexivity.
    - apply nth_error_nth. exact Hnth. }
  assert (E : crop_analysis df measures choice area fertilizer pesticide
              = Raised AttributeError).
  { unfold crop_analysis, analyse. rewrite Hnone, Harea. reflexivity. }
  rewrite E. split; reflexivity.
Qed.

Lemma X5_no_crop_name_raises_witness :
  crop_analysis
    (mkFrame yield_header
       [Yield.mk (Some "Rice"%string) one; Yield.mk None one])
    wheat_measures 1 (literal 1 1) zero zero
  = Raised AttributeError
  /\ footprint
       (crop_analysis
          (mkFrame yield_header
             [Yield.mk (Some "Rice"%string) one; Yield.mk None one])
          wheat_measures 1 (literal 1 1) zero zero)
     = None.
Proof.
  apply X5_no_crop_name_raises.
  - vm_compute. reflexivity.
  - right. vm_compute. reflexivity.
Defined.

Lemma standardize_idem {R : Type} (df : DataFrame R) :
  standardize (standardize df) = standardize df.
Proof.
  unfold standardize. cbn [columns rows]. f_equal.
  rewrite map_map. apply map_ext. intros c.
  rewrite lower_strip, lower_idem. apply strip_idem.
Qed.

(** X6: loading is idempotent: standardizing the column names of tables
    that [load_data] returned (lines 24-25) changes nothing. *)
Theorem X6_load_data_idempotent {R S : Type}
    (df : DataFrame R) (measures : DataFrame S) :
  load_data (fst (load_data df measures)) (snd (load_data df measures))
  = load_data df measures.
Proof.
  unfold load_data. cbn [fst snd]. rewrite !standardize_idem. reflexivity.
Qed.

Lemma has_column_standardize {R : Type} (name : string) (df : DataFrame R) :
  has_column name (standardize df) = true
  <-> exists c, In c (columns df) /\ strip (lower c) = name.
Proof.
  unfold has_column, standardize. cbn [columns].
  rewrite existsb_exists. split.
  - intros (c' & Hin & Heq). apply in_map_iff in Hin.
    destruct Hin as (c & <- & Hc). apply String.eqb_eq in Heq.
    exists c. auto.
  - intros (c & Hc & Heq). exists (strip (lower c)). split.
    + apply in_map_iff. exists c. auto.
    + apply String.eqb_eq. auto.
Qed.

(** X7: after [load_data], the test of line 84 finds the
    [carbon_footprint] column exactly when a column of the file is named so
    up to letter case and surrounding whitespace; when no column is, every
    crop gets the base factor [1.0]. *)
Theorem X7_column_found_up_to_case_and_space {S : Type}
    (df : DataFrame Yield.row) (measures : DataFrame S) :
  (has_column "carbon_footprint" (fst (load_data df measures)) = true
   <-> exists c, In c (columns df)
                 /\ strip (lower c) = "carbon_footprint"%string)
  /\ ((forall c, In c (columns df)
                 -> strip (lower c) <> "carbon_footprint"%string) ->
      forall crop,
        base_factor (crop_data (fst (load_data df measures)) crop) = one).
Proof.
  unfold load_data. cbn [fst]. split; [apply has_column_standardize|].
  intros Hnone crop. unfold base_factor. rewrite has_column_crop_data.
  destruct (has_column "carbon_footprint" (standardize df)) eqn:E;
    [|reflexivity].
  apply has_column_standardize in E. destruct E as (c & Hc & Heq).
  exfalso. exact (Hnone c Hc Heq).
Qed.

Lemma X7_column_found_up_to_case_and_space_witness :
  base_factor
    (crop_data
       (fst (load_data (mkFrame [" Crop"; "Yield "]%string (rows rice_table))
                       wheat_measures)) "Rice")
  = one.
Proof.
  apply (proj2 (X7_column_found_up_to_case_and_space
                  (mkFrame [" Crop"; "Yield "]%string (rows rice_table))
                  wheat_measures)).
  intros c [<-|[<-|[]]]; vm_compute; discriminate.
Defined.

Lemma drop_duplicates_seen_NoDup_id l : forall seen,
  NoDup l -> (forall x, In x l -> ~ In x seen) ->
  drop_duplicates_seen seen l = l.
Proof.
  induction l as [|x l IH]; intros seen Hnd Hdis; [reflexivity|].
  inversion Hnd as [|? ? Hx Hnd']; subst. cbn [drop_duplicates_seen].
  destruct (in_dec cell_eq_dec x seen) as [Hin|_].
  - exfalso. apply (Hdis x); [left; reflexivity|exact Hin].
  - f_equal. apply IH; [exact Hnd'|].
    intros y Hy [<-|Hs]; [contradiction|].
    apply (Hdis y); [right; exact Hy|exact Hs].
Qed.


(** X10: when the measures of the matching rows are all different, line 108
    drops none of them: the page writes every one, in the order of the
    table. *)
Theorem X10_distinct_measures_all_written measures crop :
  NoDup (matching_measures measures crop) ->
  written_measures (show_measures measures crop)
  = matching_measures measures crop.
Proof.
  intros Hnd. rewrite written_measures_show. unfold drop_duplicates.
  apply drop_duplicates_seen_NoDup_id; [exact Hnd|]. intros x _ [].
Qed.

Lemma X10_distinct_measures_all_written_witness :
  written_measures
    (show_measures
       (mkFrame measures_header
          [Measures.mk (Some "Rice"%string) (Some "Flood less"%string);
           Measures.mk (Some "Wheat"%string) (Some "Rotate crops"%string);
           Measures.mk (Some "rice"%string) None]) "RICE")
  = matching_measures
      (mkFrame measures_header
         [Measures.mk (Some "Rice"%string) (Some "Flood less"%string);
          Measures.mk (Some "Wheat"%string) (Some "Rotate crops"%string);
          Measures.mk (Some "rice"%string) None]) "RICE".
Proof.
  apply X10_distinct_measures_all_written.
  vm_compute. repeat constructor; cbn; intuition discriminate.
Defined.



(* ================================================================== *)
(** * The rows a crop name selects *)
(* ================================================================== *)




